(** * Margie's Travel search front end (app.py): model and verified properties

  The Flask application of [01-azure-search/margies-travel/app.py] is
  embedded function by function:

  - Python [str] values are sequences of Unicode code points;
  - [request.args] is a werkzeug [MultiDict], an ordered list of
    key/value pairs in which the first value of a key is the one that
    [get], [in] and [[...]] see;
  - [os.environ] and the contents of the [.env] file are finite maps;
  - Python code that prints, calls the search service or raises runs in a
    small monad [Py] that carries the outcome (a value or a raised
    exception) together with the events the code emitted, in order. *)

From Stdlib Require Import NArith Ascii String List.
From stdpp Require Import base decidable option list countable strings gmap fin_maps.

Open Scope N_scope.
Open Scope list_scope.

(** ** Python strings *)

Module PyStr.

(** A [str] is a sequence of code points. *)
Abbreviation str := (list N) (only parsing).

(** A source literal; the literals of app.py are all ASCII. *)
Definition u (s : string) : str := map N_of_ascii (list_ascii_of_string s).

(** [str.isspace] on one code point (CPython's [_PyUnicode_IsWhitespace]). *)
Definition isspace (c : N) : bool :=
  ((9 <=? c) && (c <=? 13)) || ((28 <=? c) && (c <=? 32))
  || (c =? 133) || (c =? 160) || (c =? 5760)
  || ((8192 <=? c) && (c <=? 8202))
  || (c =? 8232) || (c =? 8233) || (c =? 8239) || (c =? 8287) || (c =? 12288).

(** [s.lstrip()]: drop the leading whitespace. *)
Fixpoint lstrip (s : str) : str :=
  match s with
  | [] => []
  | c :: s' => if isspace c then lstrip s' else s
  end.

(** [s.rstrip()]: drop the trailing whitespace. *)
Definition rstrip (s : str) : str := rev (lstrip (rev s)).

(** [s.strip()]. *)
Definition strip (s : str) : str := rstrip (lstrip s).

(** Truth value of a string: [not s] holds exactly for the empty one. *)
Definition truthy (s : str) : bool :=
  match s with [] => false | _ :: _ => true end.

(** [a == b] on strings. *)
Definition eqb (a b : str) : bool := bool_decide (a = b).

(** [s.split(sep)] for a one-character separator. *)
Fixpoint split_on (sep : N) (s : str) : list str :=
  match s with
  | [] => [[]]
  | c :: s' =>
      if c =? sep then [] :: split_on sep s'
      else match split_on sep s' with
           | [] => [[c]]
           | w :: ws => (c :: w) :: ws
           end
  end.

End PyStr.
Import PyStr.

(** ** werkzeug's MultiDict, the type of [request.args] *)

Module MultiDict.

Definition t : Type := list (str * str).

(** First value stored under [key], if any. *)
Fixpoint first (d : t) (key : str) : option str :=
  match d with
  | [] => None
  | (k, v) :: d' => if eqb k key then Some v else first d' key
  end.

(** [key in d]. *)
Definition contains (d : t) (key : str) : bool :=
  match first d key with Some _ => true | None => false end.

(** [d.get(key, default)]. *)
Definition get (d : t) (key default : str) : str :=
  match first d key with Some v => v | None => default end.

(** [d[key]]: werkzeug raises [BadRequestKeyError] for a missing key. *)
Definition getitem (d : t) (key : str) : option str := first d key.

End MultiDict.

(** ** Exceptions, outcomes and the effect monad *)

(** An instance of (a subclass of) Python's [Exception]: its class and the
    text that [str(e)] and [{e}] in an f-string give. *)
Record Exception : Type := mkException { exc_class : str; exc_str : str }.

Definition ValueError (msg : str) : Exception := mkException (u "ValueError") msg.
Definition BadRequestKeyError (key : str) : Exception :=
  mkException (u "BadRequestKeyError") key.

(** What running a piece of Python code gives: a value, or a raised exception. *)
Inductive outcome (A : Type) : Type :=
| Return (a : A)
| Raise (e : Exception).
Arguments Return {A} a.
Arguments Raise {A} e.

(** ** The search service as seen through the Azure SDK *)

(** [SearchClient(endpoint, index_name, credential)] stores its arguments. *)
Record SearchClient : Type := mkSearchClient {
  client_endpoint : option str;
  client_index_name : option str;
  client_credential : option str
}.

(** [AzureKeyCredential(key)] wraps the key. *)
Definition AzureKeyCredential (key : option str) : option str := key.

(** The keyword arguments of [SearchClient.search]. *)
Record SearchKwargs : Type := mkSearchKwargs {
  kw_search_mode : str;
  kw_include_total_count : bool;
  kw_filter : option str;
  kw_order_by : option str;
  kw_facets : list str;
  kw_highlight_fields : str;
  kw_select : str
}.

(** A result record: field names with their values. *)
Definition Document : Type := list (str * str).

(** The object [SearchClient.search] returns. It is consumed lazily: the
    pages are fetched when the object is iterated, and that may raise. *)
Record SearchItemPaged : Type := mkSearchItemPaged {
  iterate : outcome (list Document)
}.

(** The part of the world the program does not control: what the SDK answers
    to a call of [search_client.search(search_text, **kwargs)]. *)
Record Azure : Type := mkAzure {
  answer : SearchClient -> str -> SearchKwargs -> outcome SearchItemPaged
}.

(** Observable events, in program order. *)
Inductive Event : Type :=
| Stdout (line : str)
| RemoteSearch (client : SearchClient) (search_text : str) (kwargs : SearchKwargs).

Module Py.

(** A computation: its outcome and the events it emitted. *)
Definition t (A : Type) : Type := (outcome A * list Event)%type.

Definition ret {A} (a : A) : t A := (Return a, []).

Definition raise {A} (e : Exception) : t A := (Raise e, []).

Definition bind {A B} (m : t A) (k : A -> t B) : t B :=
  match m with
  | (Return a, tr) => let '(r, tr') := k a in (r, tr ++ tr')
  | (Raise e, tr) => (Raise e, tr)
  end.

(** [try: body  except Exception as ex: handler ex]. *)
Definition try_except {A} (body : t A) (handler : Exception -> t A) : t A :=
  match body with
  | (Return a, tr) => (Return a, tr)
  | (Raise ex, tr) => let '(r, tr') := handler ex in (r, tr ++ tr')
  end.

(** [print(line)]. *)
Definition print (line : str) : t unit := (Return tt, [Stdout line]).

Definition result {A} (m : t A) : outcome A := fst m.
Definition events {A} (m : t A) : list Event := snd m.

End Py.

Notation "x <- m ;; k" := (Py.bind m (fun x => k))
  (at level 100, m at next level, k at level 200, right associativity).
Notation "m >> k" := (Py.bind m (fun _ => k))
  (at level 100, k at level 200, right associativity).

(** [search_client.search(search_text, **kwargs)]: the call is observable,
    and its outcome is the SDK's. *)
Definition SearchClient_search (az : Azure) (client : SearchClient)
    (search_text : str) (kwargs : SearchKwargs) : Py.t SearchItemPaged :=
  (answer az client search_text kwargs, [RemoteSearch client search_text kwargs]).

(** ** Flask's [render_template] *)

(** A value handed to a template. *)
Inductive Value : Type :=
| VStr (s : str)
| VResults (r : SearchItemPaged).

(** A rendered page: the template and the context it was rendered with. *)
Record Page : Type := mkPage {
  template_name : str;
  context : list (str * Value)
}.

(** Rendering consumes the lazily fetched results it is given. *)
Fixpoint consume (ctx : list (str * Value)) : outcome unit :=
  match ctx with
  | [] => Return tt
  | (_, VStr _) :: ctx' => consume ctx'
  | (_, VResults r) :: ctx' =>
      match iterate r with
      | Return _ => consume ctx'
      | Raise e => Raise e
      end
  end.

(** Modelled from the spec: the templates [default.html], [search.html] and
    [error.html] are not among the sources. A page is represented by the
    template name and the context passed to it; the results page is "rendered
    with result set and echoed search term", the error page "with a message",
    and the result set is "a lazily-consumed sequence" over network I/O, so
    rendering raises what iterating the result set raises. *)
Definition render_template (name : str) (ctx : list (str * Value)) : Py.t Page :=
  match consume ctx with
  | Return _ => Py.ret (mkPage name ctx)
  | Raise e => Py.raise e
  end.

(** ** Module initialisation (app.py, lines 12-20) *)

(** The three module-level globals; [os.getenv] gives [None] for a variable
    that is not set. *)
Record Config : Type := mkConfig {
  search_endpoint : option str;
  search_key : option str;
  search_index : option str
}.

(** [load_dotenv()]: the variables of the [.env] file are added to the
    environment; variables that are already set keep their value. *)
Definition load_dotenv (dotenv environ : gmap (list N) (list N)) : gmap (list N) (list N) :=
  environ ∪ dotenv.

(** [os.getenv(name)]. *)
Definition getenv (environ : gmap (list N) (list N)) (name : str) : option str :=
  environ !! name.

(** Truth value of an [Optional[str]]: [None] and [""] are false. *)
Definition truthy_opt (o : option str) : bool :=
  match o with
  | Some s => truthy s
  | None => false
  end.

(** Python's [all] on a list of truth values. *)
Definition all (l : list bool) : bool := forallb id l.

Definition missing_env_message : str :=
  u "Missing required environment variables in .env file.".

(** Running the module body up to the check of line 19: the configuration,
    or the [ValueError] that ends the process. *)
Definition module_init (dotenv environ : gmap (list N) (list N)) : outcome Config :=
  let environ := load_dotenv dotenv environ in
  let search_endpoint := getenv environ (u "SEARCH_SERVICE_ENDPOINT") in
  let search_key := getenv environ (u "SEARCH_SERVICE_QUERY_KEY") in
  let search_index := getenv environ (u "SEARCH_INDEX_NAME") in
  if negb (all [truthy_opt search_endpoint; truthy_opt search_key; truthy_opt search_index])
  then Raise (ValueError missing_env_message)
  else Return (mkConfig search_endpoint search_key search_index).

(** ** The request handlers (app.py, lines 22-104) *)

Module App.
Section Handlers.

Variable cfg : Config.
Variable az : Azure.

Definition select_clause : str :=
  u "metadata_storage_name,metadata_author,metadata_storage_size,"
  ++ u "metadata_storage_last_modified,language,merged_content,"
  ++ u "keyphrases,locations,imageTags,imageCaption, sentiment".

(** The keyword arguments of line 39-49. *)
Definition search_kwargs (filter_by sort_order : option str) : SearchKwargs :=
  {| kw_search_mode := u "all";
     kw_include_total_count := true;
     kw_filter := filter_by;
     kw_order_by := sort_order;
     kw_facets := [u "metadata_author"];
     kw_highlight_fields := u "merged_content-3,imageCaption-3";
     kw_select := select_clause |}.

(** [search_query(search_text, filter_by, sort_order)]. *)
Definition search_query (search_text : str) (filter_by sort_order : option str)
    : Py.t SearchItemPaged :=
  Py.try_except
    (let azure_credential := AzureKeyCredential (search_key cfg) in
     let search_client :=
       mkSearchClient (search_endpoint cfg) (search_index cfg) azure_credential in
     results <- SearchClient_search az search_client search_text
                  (search_kwargs filter_by sort_order) ;;
     Py.ret results)
    (fun ex =>
       Py.print (u "Error querying Azure Search: " ++ exc_str ex) >>
       Py.raise ex).

(** [home()]. *)
Definition home : Py.t Page := render_template (u "default.html") [].

(** [request.args['facet']] inside the f-string of line 81. *)
Definition args_getitem (args : MultiDict.t) (key : str) : Py.t str :=
  match MultiDict.getitem args key with
  | Some v => Py.ret v
  | None => Py.raise (BadRequestKeyError key)
  end.

(** Lines 79-81. *)
Definition filter_expression (args : MultiDict.t) : Py.t (option str) :=
  if MultiDict.contains args (u "facet")
  then facet <- args_getitem args (u "facet") ;;
       Py.ret (Some (u "metadata_author eq '" ++ facet ++ u "'"))
  else Py.ret None.

(** Lines 84-93. *)
Definition sort_expression (args : MultiDict.t) : str :=
  let sort_field := MultiDict.get args (u "sort") (u "relevance") in
  if eqb sort_field (u "file_name") then u "metadata_storage_name asc"
  else if eqb sort_field (u "size") then u "metadata_storage_size desc"
  else if eqb sort_field (u "date") then u "metadata_storage_last_modified desc"
  else if eqb sort_field (u "sentiment") then u "sentiment desc"
  else u "search.score()".

Definition empty_term_message : str := u "Search term cannot be empty.".

(** The [try] block of [search()], lines 73-99. *)
Definition search_try (args : MultiDict.t) : Py.t Page :=
  let search_text := strip (MultiDict.get args (u "search") (u "")) in
  if negb (truthy search_text)
  then render_template (u "error.html")
         [(u "error_message", VStr empty_term_message)]
  else
    filter_expression <- filter_expression args ;;
    let sort_expression := sort_expression args in
    results <- search_query search_text filter_expression (Some sort_expression) ;;
    render_template (u "search.html")
      [(u "search_results", VResults results); (u "search_terms", VStr search_text)].

(** The [except Exception as error] block of [search()], lines 101-104. *)
Definition search_except (error : Exception) : Py.t Page :=
  Py.print (u "Error during search: " ++ exc_str error) >>
  render_template (u "error.html") [(u "error_message", VStr (exc_str error))].

(** [search()], the handler of GET /search. *)
Definition search (args : MultiDict.t) : Py.t Page :=
  Py.try_except (search_try args) search_except.

End Handlers.
End App.

(** The process: the module body runs first; only if it completes are the
    routes registered and GET /search requests answered, each by one call of
    [search]. *)
Definition serve (dotenv environ : gmap (list N) (list N)) (az : Azure)
    (requests : list MultiDict.t) : outcome (list (Py.t Page)) :=
  match module_init dotenv environ with
  | Raise e => Raise e
  | Return cfg => Return (map (App.search cfg az) requests)
  end.

(** ** Reading pages and traces *)

Definition error_page (message : str) : Page :=
  mkPage (u "error.html") [(u "error_message", VStr message)].

Definition results_page (results : SearchItemPaged) (search_terms : str) : Page :=
  mkPage (u "search.html")
    [(u "search_results", VResults results); (u "search_terms", VStr search_terms)].

(** The remote queries found in a trace, in order. *)
Fixpoint remote_calls (tr : list Event) : list (SearchClient * str * SearchKwargs) :=
  match tr with
  | [] => []
  | RemoteSearch c t kw :: tr' => (c, t, kw) :: remote_calls tr'
  | Stdout _ :: tr' => remote_calls tr'
  end.

(** The lines printed to standard output found in a trace, in order. *)
Fixpoint stdout_lines (tr : list Event) : list (list N) :=
  match tr with
  | [] => []
  | Stdout line :: tr' => line :: stdout_lines tr'
  | RemoteSearch _ _ _ :: tr' => stdout_lines tr'
  end.

(** The three request fields of a remote query: search text, filter
    expression, sort expression. *)
Definition request_fields (q : SearchClient * str * SearchKwargs)
    : str * option str * option str :=
  let '(_, search_text, kw) := q in (search_text, kw_filter kw, kw_order_by kw).

(** The client that [search_query] builds from the module globals. *)
Definition client_of (cfg : Config) : SearchClient :=
  mkSearchClient (search_endpoint cfg) (search_index cfg) (search_key cfg).

(** ** Sample configurations, services and requests *)

Definition sample_cfg : Config :=
  mkConfig (Some (u "https://margies.search.windows.net")) (Some (u "query-key"))
    (Some (u "margies-index")).

(** A service that answers every query with one document. *)
Definition service_up : Azure :=
  mkAzure (fun _ _ _ =>
    Return (mkSearchItemPaged (Return [[(u "metadata_storage_name", u "a.pdf")]]))).

(** A search call that raises at once, before any result object exists. It
    drives the [except] block of [search_query]; only a client that fetches
    eagerly reports a failed query this way. *)
Definition service_rejecting : Azure :=
  mkAzure (fun _ _ _ => Raise (mkException (u "HttpResponseError") (u "Forbidden"))).

(** A search call that returns its result object and fails only when the
    results are iterated: this is how a lazily fetched result set reports a
    transport, authentication or malformed-query failure. *)
Definition service_failing_late : Azure :=
  mkAzure (fun _ _ _ =>
    Return (mkSearchItemPaged
      (Raise (mkException (u "HttpResponseError") (u "Invalid expression"))))).

Definition sample_environ : gmap (list N) (list N) :=
  {[ u "SEARCH_SERVICE_ENDPOINT" := u "https://margies.search.windows.net" ]}.

Definition sample_dotenv : gmap (list N) (list N) :=
  {[ u "SEARCH_SERVICE_QUERY_KEY" := u "query-key";
     u "SEARCH_INDEX_NAME" := u "margies-index" ]}.

(** ** Facts about strings *)

Section Strings.

Lemma lstrip_whitespace (s : list N) :
  forallb isspace s = true -> lstrip s = [].
Proof.
  induction s as [|c s IH]; simpl; [reflexivity|].
  intros H. apply andb_prop in H as [Hc Hs]. rewrite Hc. auto.
Qed.

Lemma lstrip_nil_whitespace (s : list N) :
  lstrip s = [] -> forallb isspace s = true.
Proof.
  induction s as [|c s IH]; simpl; [reflexivity|].
  destruct (isspace c); simpl; [exact IH | discriminate].
Qed.

(** What [lstrip] leaves does not start with whitespace. *)
Lemma lstrip_head (s : list N) c r :
  lstrip s = c :: r -> isspace c = false.
Proof.
  induction s as [|d s IH]; simpl; [discriminate|].
  destruct (isspace d) eqn:Hd; [exact IH|].
  intros [= <- _]. exact Hd.
Qed.

Lemma forallb_isspace_rev (s : list N) :
  forallb isspace (rev s) = forallb isspace s.
Proof.
  induction s as [|c s IH]; simpl; [reflexivity|].
  rewrite forallb_app, IH. simpl. rewrite andb_true_r. apply andb_comm.
Qed.

(** [s.strip()] is empty exactly when [s] is empty or whitespace only. *)
Lemma strip_nil_iff (s : list N) :
  strip s = [] <-> forallb isspace s = true.
Proof.
  unfold strip, rstrip. split.
  - intros H. apply (f_equal (@rev N)) in H. rewrite rev_involutive in H.
    simpl in H. apply lstrip_nil_whitespace in H.
    rewrite forallb_isspace_rev in H.
    destruct (lstrip s) as [|c r] eqn:E.
    + now apply lstrip_nil_whitespace.
    + apply lstrip_head in E. simpl in H. rewrite E in H. discriminate.
  - intros H. rewrite (lstrip_whitespace _ H). reflexivity.
Qed.

Lemma truthy_false_iff (s : list N) : truthy s = false <-> s = [].
Proof. destruct s; simpl; split; congruence. Qed.

Lemma eqb_eq (a b : list N) : eqb a b = true <-> a = b.
Proof. unfold eqb. apply bool_decide_eq_true. Qed.

Lemma eqb_neq (a b : list N) : eqb a b = false <-> a <> b.
Proof. unfold eqb. apply bool_decide_eq_false. Qed.

End Strings.

(** ** Facts about [request.args] *)

Lemma contains_first (d : MultiDict.t) key :
  MultiDict.contains d key = true <-> exists v, MultiDict.first d key = Some v.
Proof.
  unfold MultiDict.contains. destruct (MultiDict.first d key); split.
  - eauto.
  - reflexivity.
  - discriminate.
  - intros [v Hv]. discriminate.
Qed.

Lemma contains_false_first (d : MultiDict.t) key :
  MultiDict.contains d key = false <-> MultiDict.first d key = None.
Proof.
  unfold MultiDict.contains. destruct (MultiDict.first d key); split; congruence.
Qed.

(** ** How the handlers run *)

Section Runs.

Variable cfg : Config.
Variable az : Azure.

(** [search_query] always makes its one call; on a failure it logs and
    re-raises. *)
Lemma search_query_run search_text filter_by sort_order :
  App.search_query cfg az search_text filter_by sort_order =
  let call := RemoteSearch (client_of cfg) search_text
                (App.search_kwargs filter_by sort_order) in
  match answer az (client_of cfg) search_text (App.search_kwargs filter_by sort_order) with
  | Return r => (Return r, [call])
  | Raise e => (Raise e, [call; Stdout (u "Error querying Azure Search: " ++ exc_str e)])
  end.
Proof.
  unfold App.search_query, SearchClient_search, AzureKeyCredential, client_of.
  cbv [Py.bind Py.try_except Py.print Py.raise Py.ret].
  destruct (answer az _ search_text _); reflexivity.
Qed.

(** The guarded lookup of lines 80-81 never raises. *)
Lemma filter_expression_run (args : MultiDict.t) :
  App.filter_expression args =
  Py.ret match MultiDict.first args (u "facet") with
         | Some facet => Some (u "metadata_author eq '" ++ facet ++ u "'")
         | None => None
         end.
Proof.
  unfold App.filter_expression, App.args_getitem, MultiDict.contains, MultiDict.getitem.
  destruct (MultiDict.first args (u "facet")); reflexivity.
Qed.

(** An empty search term: the error page, and nothing else happens. *)
Lemma search_run_empty (args : MultiDict.t) :
  strip (MultiDict.get args (u "search") (u "")) = [] ->
  App.search cfg az args = (Return (error_page App.empty_term_message), []).
Proof.
  intros H. unfold App.search, App.search_try. rewrite H. reflexivity.
Qed.

(** A non-empty search term: one remote query, then the results page, or
    the error page for whatever the query or the rendering raised. *)
Lemma search_run_query (args : MultiDict.t) :
  let search_text := strip (MultiDict.get args (u "search") (u "")) in
  let kw := App.search_kwargs
              match MultiDict.first args (u "facet") with
              | Some facet => Some (u "metadata_author eq '" ++ facet ++ u "'")
              | None => None
              end
              (Some (App.sort_expression args)) in
  let call := RemoteSearch (client_of cfg) search_text kw in
  search_text <> [] ->
  App.search cfg az args =
  match answer az (client_of cfg) search_text kw with
  | Raise e =>
      (Return (error_page (exc_str e)),
       [call; Stdout (u "Error querying Azure Search: " ++ exc_str e);
        Stdout (u "Error during search: " ++ exc_str e)])
  | Return r =>
      match iterate r with
      | Return _ => (Return (results_page r search_text), [call])
      | Raise e =>
          (Return (error_page (exc_str e)),
           [call; Stdout (u "Error during search: " ++ exc_str e)])
      end
  end.
Proof.
  intros search_text kw call Hne.
  unfold App.search, App.search_try. fold search_text.
  destruct search_text as [|c t] eqn:E; [congruence|].
  cbv [truthy negb].
  rewrite filter_expression_run. unfold Py.ret at 1. unfold Py.bind at 1.
  rewrite search_query_run. fold kw. cbv zeta.
  destruct (answer az (client_of cfg) (c :: t) kw) as [r|e].
  - unfold Py.bind, render_template, consume. 
    destruct (iterate r) as [docs|e]; reflexivity.
  - reflexivity.
Qed.

(** The remote queries of one GET /search request. *)
Lemma search_remote_calls (args : MultiDict.t) :
  let search_text := strip (MultiDict.get args (u "search") (u "")) in
  remote_calls (Py.events (App.search cfg az args)) =
  if truthy search_text
  then [(client_of cfg, search_text,
         App.search_kwargs
           match MultiDict.first args (u "facet") with
           | Some facet => Some (u "metadata_author eq '" ++ facet ++ u "'")
           | None => None
           end
           (Some (App.sort_expression args)))]
  else [].
Proof.
  intros search_text.
  destruct (truthy search_text) eqn:T.
  - assert (Hne : search_text <> []) by (intros E; rewrite E in T; discriminate).
    rewrite (search_run_query args Hne). fold search_text.
    destruct (answer az _ search_text _) as [r|e]; [destruct (iterate r)|];
      reflexivity.
  - apply truthy_false_iff in T. rewrite (search_run_empty args T). reflexivity.
Qed.

End Runs.

(** Case split on the stripped search term, rewriting the run of [search]
    in each case. *)
Ltac by_search_term cfg az args :=
  let E := fresh "E" in
  let Hne := fresh "Hne" in
  destruct (strip (MultiDict.get args (u "search") (u ""))) as [|? ?] eqn:E;
  [ rewrite (search_run_empty cfg az args E)
  | assert (Hne : strip (MultiDict.get args (u "search") (u "")) <> [])
      by (rewrite E; discriminate);
    rewrite (search_run_query cfg az args Hne) ].

(** ** The end-to-end examples of the specification *)

Example search_budget_sorted_by_size :
  App.search sample_cfg service_up [(u "search", u "budget"); (u "sort", u "size")]
  = (Return (results_page
               (mkSearchItemPaged (Return [[(u "metadata_storage_name", u "a.pdf")]]))
               (u "budget")),
     [RemoteSearch (client_of sample_cfg) (u "budget")
        (App.search_kwargs None (Some (u "metadata_storage_size desc")))]).
Proof. vm_compute. reflexivity. Qed.

Example search_paris_by_author :
  remote_calls (Py.events
    (App.search sample_cfg service_up [(u "search", u "paris"); (u "facet", u "jsmith")]))
  = [(client_of sample_cfg, u "paris",
      App.search_kwargs (Some (u "metadata_author eq 'jsmith'"))
        (Some (u "search.score()")))].
Proof. vm_compute. reflexivity. Qed.

Example search_whitespace_only :
  App.search sample_cfg service_up [(u "search", u "   ")]
  = (Return (error_page (u "Search term cannot be empty.")), []).
Proof. vm_compute. reflexivity. Qed.

(** ** Empty search terms *)

(** C1. A GET /search request whose [search] value is empty or made of
    whitespace only gets the error page with the message "Search term cannot
    be empty.", and no remote search call is made (the handler emits no
    event at all). *)
Theorem empty_search_term_rejected cfg az (args : MultiDict.t) (v : list N) :
  MultiDict.first args (u "search") = Some v ->
  forallb isspace v = true ->
  App.search cfg az args
    = (Return (error_page (u "Search term cannot be empty.")), [])
  /\ remote_calls (Py.events (App.search cfg az args)) = [].
Proof.
  intros Hv Hsp.
  assert (E : App.search cfg az args
              = (Return (error_page App.empty_term_message), [])).
  { apply search_run_empty. unfold MultiDict.get. rewrite Hv.
    now apply strip_nil_iff. }
  rewrite E. split; reflexivity.
Qed.

Lemma empty_search_term_rejected_witness :
  App.search sample_cfg service_up [(u "sort", u "date"); (u "search", [32; 9; 160; 8195])]
    = (Return (error_page (u "Search term cannot be empty.")), [])
  /\ App.search sample_cfg service_up [(u "search", [])]
    = (Return (error_page (u "Search term cannot be empty.")), []).
Proof.
  split.
  - apply (empty_search_term_rejected sample_cfg service_up
             [(u "sort", u "date"); (u "search", [32; 9; 160; 8195])]
             [32; 9; 160; 8195]); reflexivity.
  - apply (empty_search_term_rejected sample_cfg service_up [(u "search", [])] []);
      reflexivity.
Defined.

(** C10. A GET /search request without any [search] parameter is treated as
    one with an empty search term: the value read is the empty string, the
    response and the trace are those of the same request with [search=]
    added, namely the error page with the fixed message and no remote call. *)
Theorem missing_search_parameter_is_empty cfg az (args : MultiDict.t) :
  MultiDict.contains args (u "search") = false ->
  MultiDict.get args (u "search") (u "") = []
  /\ App.search cfg az args = App.search cfg az ((u "search", []) :: args)
  /\ App.search cfg az args
     = (Return (error_page (u "Search term cannot be empty.")), [])
  /\ remote_calls (Py.events (App.search cfg az args)) = [].
Proof.
  intros H. apply contains_false_first in H.
  assert (G : MultiDict.get args (u "search") (u "") = []).
  { unfold MultiDict.get. rewrite H. reflexivity. }
  assert (E : App.search cfg az args
              = (Return (error_page App.empty_term_message), [])).
  { apply search_run_empty. rewrite G. reflexivity. }
  split; [exact G|]. split; [|split; [exact E|]].
  - rewrite E. symmetry. apply search_run_empty. reflexivity.
  - rewrite E. reflexivity.
Qed.

Lemma missing_search_parameter_is_empty_witness :
  App.search sample_cfg service_up [(u "facet", u "jsmith"); (u "sort", u "size")]
  = (Return (error_page (u "Search term cannot be empty.")), []).
Proof.
  apply (missing_search_parameter_is_empty sample_cfg service_up
           [(u "facet", u "jsmith"); (u "sort", u "size")]).
  reflexivity.
Defined.

(** ** The filter expression *)

(** C2. Whatever query a GET /search request sends to the gateway: if the
    request has a [facet] parameter, the filter is the string
    [metadata_author eq '<facet value>'] with the value inserted as it came,
    and if it has none, the filter is [None]. *)
Theorem facet_filter_expression cfg az (args : MultiDict.t) c t kw :
  In (c, t, kw) (remote_calls (Py.events (App.search cfg az args))) ->
  (forall facet, MultiDict.first args (u "facet") = Some facet ->
     kw_filter kw = Some (u "metadata_author eq '" ++ facet ++ u "'"))
  /\ (MultiDict.contains args (u "facet") = false -> kw_filter kw = None).
Proof.
  rewrite search_remote_calls.
  destruct (truthy _); [|intros []].
  intros [[= <- <- <-]|[]]. split.
  - intros facet H. cbn [kw_filter App.search_kwargs]. rewrite H. reflexivity.
  - intros H. apply contains_false_first in H.
    cbn [kw_filter App.search_kwargs]. rewrite H. reflexivity.
Qed.

Lemma facet_filter_expression_witness :
  (forall facet, MultiDict.first [(u "search", u "paris"); (u "facet", u "O'Hara")]
                   (u "facet") = Some facet ->
     kw_filter (App.search_kwargs (Some (u "metadata_author eq 'O'Hara'"))
                  (Some (u "search.score()")))
     = Some (u "metadata_author eq '" ++ facet ++ u "'"))
  /\ (MultiDict.contains [(u "search", u "paris"); (u "facet", u "O'Hara")]
        (u "facet") = false ->
      kw_filter (App.search_kwargs (Some (u "metadata_author eq 'O'Hara'"))
                   (Some (u "search.score()"))) = None).
Proof.
  apply (facet_filter_expression sample_cfg service_up
           [(u "search", u "paris"); (u "facet", u "O'Hara")]
           (client_of sample_cfg) (u "paris")).
  left. reflexivity.
Defined.

(** C9. A [facet] parameter that is present with the empty string as its
    value still produces a filter: a request with a non-empty search term
    sends exactly one query, and its filter is [metadata_author eq '']. *)
Theorem empty_facet_still_filters cfg az (args : MultiDict.t) :
  strip (MultiDict.get args (u "search") (u "")) <> [] ->
  MultiDict.first args (u "facet") = Some [] ->
  exists c t kw,
    remote_calls (Py.events (App.search cfg az args)) = [(c, t, kw)]
    /\ kw_filter kw = Some (u "metadata_author eq ''").
Proof.
  intros Hne Hf. rewrite search_remote_calls.
  destruct (strip _) as [|ch tl] eqn:E; [congruence|].
  cbn [truthy]. rewrite Hf. do 3 eexists. split; reflexivity.
Qed.

Lemma empty_facet_still_filters_witness :
  exists c t kw,
    remote_calls (Py.events
      (App.search sample_cfg service_up [(u "search", u "paris"); (u "facet", [])]))
    = [(c, t, kw)]
    /\ kw_filter kw = Some (u "metadata_author eq ''").
Proof.
  apply (empty_facet_still_filters sample_cfg service_up
           [(u "search", u "paris"); (u "facet", [])]).
  - vm_compute. discriminate.
  - reflexivity.
Defined.

(** ** The sort expression *)

(** The lookup of lines 84-93 on the value read for [sort]. *)
Lemma sort_expression_cases (args : MultiDict.t) :
  let sort_field := MultiDict.get args (u "sort") (u "relevance") in
  (sort_field = u "file_name" ->
     App.sort_expression args = u "metadata_storage_name asc")
  /\ (sort_field = u "size" ->
     App.sort_expression args = u "metadata_storage_size desc")
  /\ (sort_field = u "date" ->
     App.sort_expression args = u "metadata_storage_last_modified desc")
  /\ (sort_field = u "sentiment" ->
     App.sort_expression args = u "sentiment desc")
  /\ (sort_field <> u "file_name" -> sort_field <> u "size" ->
      sort_field <> u "date" -> sort_field <> u "sentiment" ->
     App.sort_expression args = u "search.score()").
Proof.
  intros sort_field. unfold App.sort_expression. fold sort_field.
  repeat apply conj.
  - intros ->. reflexivity.
  - intros ->. reflexivity.
  - intros ->. reflexivity.
  - intros ->. reflexivity.
  - intros H1 H2 H3 H4.
    apply eqb_neq in H1, H2, H3, H4. rewrite H1, H2, H3, H4. reflexivity.
Qed.

(** C3. A GET /search request with a non-empty search term sends one query
    whose sort expression follows the table: no [sort] parameter or
    [relevance] gives [search.score()], [file_name] gives
    [metadata_storage_name asc], [size] gives [metadata_storage_size desc],
    [date] gives [metadata_storage_last_modified desc], [sentiment] gives
    [sentiment desc], and any other value gives [search.score()]; the query
    is sent whatever the value is, so no value of [sort] is an error. *)
Theorem sort_expression_table cfg az (args : MultiDict.t) :
  strip (MultiDict.get args (u "search") (u "")) <> [] ->
  exists c t kw,
    remote_calls (Py.events (App.search cfg az args)) = [(c, t, kw)]
    /\ let sort := MultiDict.first args (u "sort") in
       (sort = None \/ sort = Some (u "relevance") ->
          kw_order_by kw = Some (u "search.score()"))
       /\ (sort = Some (u "file_name") ->
          kw_order_by kw = Some (u "metadata_storage_name asc"))
       /\ (sort = Some (u "size") ->
          kw_order_by kw = Some (u "metadata_storage_size desc"))
       /\ (sort = Some (u "date") ->
          kw_order_by kw = Some (u "metadata_storage_last_modified desc"))
       /\ (sort = Some (u "sentiment") ->
          kw_order_by kw = Some (u "sentiment desc"))
       /\ (forall v, sort = Some v ->
             ~ In v [u "file_name"; u "size"; u "date"; u "sentiment"] ->
          kw_order_by kw = Some (u "search.score()")).
Proof.
  intros Hne. rewrite search_remote_calls.
  destruct (strip _) as [|ch tl] eqn:E; [congruence|].
  cbn [truthy]. do 3 eexists. split; [reflexivity|].
  cbn [kw_order_by App.search_kwargs]. cbv zeta.
  destruct (sort_expression_cases args) as (Hf & Hs & Hd & Hm & Ho).
  unfold MultiDict.get in Hf, Hs, Hd, Hm, Ho.
  repeat apply conj.
  - intros [H|H]; rewrite H in Ho; f_equal; apply Ho; discriminate.
  - intros H; rewrite H in Hf; f_equal; now apply Hf.
  - intros H; rewrite H in Hs; f_equal; now apply Hs.
  - intros H; rewrite H in Hd; f_equal; now apply Hd.
  - intros H; rewrite H in Hm; f_equal; now apply Hm.
  - intros v H Hv; rewrite H in Ho; f_equal.
    apply Ho; intros ->; apply Hv; simpl; tauto.
Qed.

Lemma sort_expression_table_witness :
  exists c t kw,
    remote_calls (Py.events
      (App.search sample_cfg service_up [(u "search", u "budget"); (u "sort", u "size")]))
    = [(c, t, kw)]
    /\ let sort := MultiDict.first [(u "search", u "budget"); (u "sort", u "size")]
                     (u "sort") in
       (sort = None \/ sort = Some (u "relevance") ->
          kw_order_by kw = Some (u "search.score()"))
       /\ (sort = Some (u "file_name") ->
          kw_order_by kw = Some (u "metadata_storage_name asc"))
       /\ (sort = Some (u "size") ->
          kw_order_by kw = Some (u "metadata_storage_size desc"))
       /\ (sort = Some (u "date") ->
          kw_order_by kw = Some (u "metadata_storage_last_modified desc"))
       /\ (sort = Some (u "sentiment") ->
          kw_order_by kw = Some (u "sentiment desc"))
       /\ (forall v, sort = Some v ->
             ~ In v [u "file_name"; u "size"; u "date"; u "sentiment"] ->
          kw_order_by kw = Some (u "search.score()")).
Proof.
  apply (sort_expression_table sample_cfg service_up
           [(u "search", u "budget"); (u "sort", u "size")]).
  vm_compute. discriminate.
Defined.

(** ** The gateway *)

(** C6. For every search text, filter and sort order it is given,
    [search_query] issues exactly one remote query, on the configured
    endpoint, index and key, with the caller's three values and fixed
    parameters otherwise: search mode [all], the total count requested, the
    single facet [metadata_author], the highlight fields
    [merged_content-3,imageCaption-3], and a select clause naming the eleven
    result fields (the last one written after a blank). *)
Theorem gateway_issues_one_fixed_query cfg az
    (search_text : list N) (filter_by sort_order : option (list N)) :
  remote_calls (Py.events (App.search_query cfg az search_text filter_by sort_order))
  = [(mkSearchClient (search_endpoint cfg) (search_index cfg) (search_key cfg),
      search_text,
      {| kw_search_mode := u "all";
         kw_include_total_count := true;
         kw_filter := filter_by;
         kw_order_by := sort_order;
         kw_facets := [u "metadata_author"];
         kw_highlight_fields := u "merged_content-3,imageCaption-3";
         kw_select :=
           u "metadata_storage_name,metadata_author,metadata_storage_size,metadata_storage_last_modified,language,merged_content,keyphrases,locations,imageTags,imageCaption, sentiment" |})]
  /\ map strip (split_on 44 App.select_clause)
     = map u ["metadata_storage_name"; "metadata_author"; "metadata_storage_size";
              "metadata_storage_last_modified"; "language"; "merged_content";
              "keyphrases"; "locations"; "imageTags"; "imageCaption";
              "sentiment"]%string.
Proof.
  split; [|vm_compute; reflexivity].
  rewrite search_query_run. cbv zeta.
  destruct (answer az _ search_text _); reflexivity.
Qed.

(** The [except] block of lines 53-56: when the call itself raises, the
    gateway prints one line and re-raises that exception unchanged. *)
Lemma search_query_except_block cfg az
    (search_text : list N) (filter_by sort_order : option (list N)) e :
  answer az (client_of cfg) search_text (App.search_kwargs filter_by sort_order)
    = Raise e ->
  App.search_query cfg az search_text filter_by sort_order
  = (Raise e,
     [RemoteSearch (client_of cfg) search_text (App.search_kwargs filter_by sort_order);
      Stdout (u "Error querying Azure Search: " ++ exc_str e)]).
Proof.
  intros H. rewrite search_query_run. cbv zeta. rewrite H. reflexivity.
Qed.



(** ** The handler boundary *)

(** C4. No exception escapes [search()]: every request ends in a rendered
    page, the results page or the error page. Whatever the [try] block
    raises is caught and answered with the error page carrying that
    exception's message, and in particular so is whatever the remote call
    raises. *)
Theorem search_catches_every_exception cfg az (args : MultiDict.t) :
  (exists page,
     Py.result (App.search cfg az args) = Return page
     /\ ((exists message, page = error_page message)
         \/ (exists results terms, page = results_page results terms)))
  /\ (forall e,
        Py.result (App.search_try cfg az args) = Raise e ->
        Py.result (App.search cfg az args) = Return (error_page (exc_str e)))
  /\ (forall c t kw e,
        In (c, t, kw) (remote_calls (Py.events (App.search cfg az args))) ->
        answer az c t kw = Raise e ->
        Py.result (App.search cfg az args) = Return (error_page (exc_str e))).
Proof.
  split; [|split].
  - by_search_term cfg az args.
    + eauto.
    + destruct (answer az _ _ _) as [r|e]; [destruct (iterate r)|];
        cbn [Py.result fst]; eauto 6.
  - intros e. unfold App.search, Py.try_except, Py.result.
    destruct (App.search_try cfg az args) as [[page|e'] tr]; cbn [fst];
      [discriminate|].
    intros [= ->]. reflexivity.
  - intros c t kw e. pose proof (search_remote_calls cfg az args) as Hc.
    cbv zeta in Hc. rewrite Hc. clear Hc.
    destruct (truthy (strip (MultiDict.get args (u "search") (u "")))) eqn:T;
      [|intros []].
    intros [Heq|[]] Ha.
    apply (f_equal (fun q => answer az (fst (fst q)) (snd (fst q)) (snd q))) in Heq.
    cbn [fst snd] in Heq. rewrite Ha in Heq.
    assert (Hne : strip (MultiDict.get args (u "search") (u "")) <> [])
      by (intros E; rewrite E in T; discriminate).
    rewrite (search_run_query cfg az args Hne). cbv zeta. rewrite Heq. reflexivity.
Qed.

Lemma search_catches_every_exception_witness :
  Py.result (App.search sample_cfg service_rejecting [(u "search", u "paris")])
    = Return (error_page (u "Forbidden"))
  /\ Py.result (App.search sample_cfg service_failing_late [(u "search", u "paris")])
    = Return (error_page (u "Invalid expression")).
Proof.
  split.
  - apply (search_catches_every_exception sample_cfg service_rejecting
             [(u "search", u "paris")])
      with (e := mkException (u "HttpResponseError") (u "Forbidden"))
           (c := client_of sample_cfg) (t := u "paris")
           (kw := App.search_kwargs None (Some (u "search.score()"))).
    + left. reflexivity.
    + reflexivity.
  - apply (proj1 (proj2 (search_catches_every_exception sample_cfg service_failing_late
             [(u "search", u "paris")]))
             (mkException (u "HttpResponseError") (u "Invalid expression"))).
    reflexivity.
Defined.

(** ** Start-up *)

(** C5. If one of the three required variables is set neither in the
    environment nor in the [.env] file, the module body raises [ValueError]
    and no request is ever answered. Whenever requests are answered, the
    three values are present and non-empty in the configuration every
    handler call uses. *)
Theorem startup_requires_configuration (dotenv environ : gmap (list N) (list N)) :
  ((exists name,
      In name [u "SEARCH_SERVICE_ENDPOINT"; u "SEARCH_SERVICE_QUERY_KEY";
               u "SEARCH_INDEX_NAME"]
      /\ environ !! name = None /\ dotenv !! name = None) ->
   module_init dotenv environ
     = Raise (ValueError (u "Missing required environment variables in .env file."))
   /\ forall az requests,
        serve dotenv environ az requests
        = Raise (ValueError (u "Missing required environment variables in .env file.")))
  /\ (forall az requests responses,
        serve dotenv environ az requests = Return responses ->
        exists endpoint key index,
          endpoint <> [] /\ key <> [] /\ index <> []
          /\ module_init dotenv environ
             = Return (mkConfig (Some endpoint) (Some key) (Some index))
          /\ responses
             = map (App.search (mkConfig (Some endpoint) (Some key) (Some index)) az)
                 requests).
Proof.
  split.
  - intros (name & Hin & He & Hd).
    assert (Hm : getenv (load_dotenv dotenv environ) name = None).
    { unfold getenv, load_dotenv. apply lookup_union_None. split; assumption. }
    assert (Hi : module_init dotenv environ = Raise (ValueError missing_env_message)).
    { unfold module_init. cbv zeta.
      destruct Hin as [<-|[<-|[<-|[]]]]; rewrite Hm; cbn [truthy_opt all forallb id];
        rewrite ?andb_false_r; reflexivity. }
    split; [exact Hi|]. intros az requests. unfold serve. rewrite Hi. reflexivity.
  - intros az requests responses. unfold serve, module_init. cbv zeta.
    destruct (getenv _ (u "SEARCH_SERVICE_ENDPOINT")) as [[|e1 e]|];
      destruct (getenv _ (u "SEARCH_SERVICE_QUERY_KEY")) as [[|k1 k]|];
      destruct (getenv _ (u "SEARCH_INDEX_NAME")) as [[|i1 i]|];
      cbn [truthy_opt truthy all forallb id andb negb]; try discriminate.
    intros [= <-]. exists (e1 :: e), (k1 :: k), (i1 :: i).
    repeat (split; [discriminate|]). split; reflexivity.
Qed.

Lemma startup_requires_configuration_witness :
  module_init sample_dotenv ∅
    = Raise (ValueError (u "Missing required environment variables in .env file."))
  /\ exists endpoint key index,
       endpoint <> [] /\ key <> [] /\ index <> []
       /\ module_init sample_dotenv sample_environ
          = Return (mkConfig (Some endpoint) (Some key) (Some index))
       /\ [App.search sample_cfg service_up [(u "search", u "paris")]]
          = map (App.search (mkConfig (Some endpoint) (Some key) (Some index)) service_up)
              [[(u "search", u "paris")]].
Proof.
  split.
  - apply (proj1 (startup_requires_configuration sample_dotenv ∅)).
    exists (u "SEARCH_SERVICE_ENDPOINT"). split; [left; reflexivity|].
    split; reflexivity.
  - apply (proj2 (startup_requires_configuration sample_dotenv sample_environ)
             service_up [[(u "search", u "paris")]]).
    vm_compute. reflexivity.
Defined.

(** ** The request translation *)

(** C8. The mapping from the query parameters [search], [facet] and [sort]
    to search text, filter expression and sort expression is a function of
    these three parameters alone: two requests that agree on them send
    queries with the same three fields, whatever the configuration, the
    behaviour of the search service and the other parameters are. The
    mapping has no effect of its own: the first event of a request, if there
    is one, is the remote query itself. *)
Theorem request_translation_is_pure cfg1 cfg2 az1 az2 (args1 args2 : MultiDict.t) :
  MultiDict.first args1 (u "search") = MultiDict.first args2 (u "search") ->
  MultiDict.first args1 (u "facet") = MultiDict.first args2 (u "facet") ->
  MultiDict.first args1 (u "sort") = MultiDict.first args2 (u "sort") ->
  map request_fields (remote_calls (Py.events (App.search cfg1 az1 args1)))
  = map request_fields (remote_calls (Py.events (App.search cfg2 az2 args2)))
  /\ (forall ev rest,
        Py.events (App.search cfg1 az1 args1) = ev :: rest ->
        exists c t kw, ev = RemoteSearch c t kw).
Proof.
  intros Hs Hf Ho. split.
  - rewrite !search_remote_calls.
    unfold App.sort_expression, MultiDict.get. rewrite Hs, Hf, Ho.
    destruct (truthy _); reflexivity.
  - intros ev rest.
    by_search_term cfg1 az1 args1.
    + discriminate.
    + destruct (answer az1 _ _ _) as [r|e]; [destruct (iterate r)|];
        cbn [Py.events snd]; intros [= <- _]; eauto.
Qed.

Lemma request_translation_is_pure_witness :
  map request_fields (remote_calls (Py.events
    (App.search sample_cfg service_up
       [(u "search", u " paris "); (u "facet", u "jsmith")])))
  = map request_fields (remote_calls (Py.events
    (App.search (mkConfig None None None) service_rejecting
       [(u "page", u "2"); (u "facet", u "jsmith"); (u "search", u " paris ");
        (u "facet", u "other")]))).
Proof.
  apply (request_translation_is_pure sample_cfg (mkConfig None None None)
           service_up service_rejecting
           [(u "search", u " paris "); (u "facet", u "jsmith")]
           [(u "page", u "2"); (u "facet", u "jsmith"); (u "search", u " paris ");
            (u "facet", u "other")]); reflexivity.
Defined.

(** * Further properties of the handlers *)

(** ** More on [strip] *)

Section StripFacts.

(** [lstrip] removes a whitespace-only prefix and nothing else. *)
Lemma lstrip_decompose (s : list N) :
  exists pre, s = pre ++ lstrip s /\ forallb isspace pre = true.
Proof.
  induction s as [|c s (pre & Hs & Hpre)]; [exists []; split; reflexivity|].
  simpl. destruct (isspace c) eqn:Hc.
  - exists (c :: pre). simpl. rewrite Hc, Hpre. split; [congruence|reflexivity].
  - exists []. split; reflexivity.
Qed.

(** [rstrip] removes a whitespace-only suffix and nothing else. *)
Lemma rstrip_decompose (s : list N) :
  exists post, s = rstrip s ++ post /\ forallb isspace post = true.
Proof.
  unfold rstrip. destruct (lstrip_decompose (rev s)) as (pre & Hs & Hpre).
  exists (rev pre). split.
  - rewrite <- rev_app_distr, <- Hs. symmetry. apply rev_involutive.
  - now rewrite forallb_isspace_rev.
Qed.

(** A string that does not start with whitespace is left alone by [lstrip]. *)
Lemma lstrip_fixed (s : list N) :
  (forall c r, s = c :: r -> isspace c = false) -> lstrip s = s.
Proof.
  destruct s as [|c r]; [reflexivity|].
  intros H. simpl. now rewrite (H c r eq_refl).
Qed.

Lemma strip_head (s : list N) c r : strip s = c :: r -> isspace c = false.
Proof.
  unfold strip. intros H.
  destruct (rstrip_decompose (lstrip s)) as (post & Hs & _).
  rewrite H in Hs. simpl in Hs. now apply lstrip_head in Hs.
Qed.

Lemma strip_last (s : list N) r c : strip s = r ++ [c] -> isspace c = false.
Proof.
  unfold strip, rstrip. intros H.
  apply (f_equal (@rev N)) in H. rewrite rev_involutive, rev_app_distr in H.
  simpl in H. now apply lstrip_head in H.
Qed.

(** Stripping twice is stripping once. *)
Lemma strip_idempotent (s : list N) : strip (strip s) = strip s.
Proof.
  assert (L : lstrip (strip s) = strip s).
  { apply lstrip_fixed. intros c r. apply strip_head. }
  unfold strip at 1. rewrite L. unfold rstrip.
  assert (R : lstrip (rev (strip s)) = rev (strip s)).
  { apply lstrip_fixed. intros c r Hr.
    apply (strip_last s (rev r) c).
    apply (f_equal (@rev N)) in Hr. rewrite rev_involutive in Hr. exact Hr. }
  rewrite R. apply rev_involutive.
Qed.

End StripFacts.

(** ** More on [request.args] *)

Lemma first_cons_ne (d : MultiDict.t) (k v key : list N) :
  k <> key -> MultiDict.first ((k, v) :: d) key = MultiDict.first d key.
Proof. intros H. simpl. apply eqb_neq in H. now rewrite H. Qed.

Lemma first_cons_eq (d : MultiDict.t) (k v : list N) :
  MultiDict.first ((k, v) :: d) k = Some v.
Proof.
  simpl. assert (H : eqb k k = true) by now apply eqb_eq. now rewrite H.
Qed.

(** The run of [search] depends on the request only through the stripped
    search term and the first values of [facet] and [sort]. *)
Lemma search_ext cfg az (args1 args2 : MultiDict.t) :
  strip (MultiDict.get args1 (u "search") (u ""))
    = strip (MultiDict.get args2 (u "search") (u "")) ->
  MultiDict.first args1 (u "facet") = MultiDict.first args2 (u "facet") ->
  MultiDict.first args1 (u "sort") = MultiDict.first args2 (u "sort") ->
  App.search cfg az args1 = App.search cfg az args2.
Proof.
  intros Hs Hf Ho.
  assert (Hsort : App.sort_expression args1 = App.sort_expression args2)
    by (unfold App.sort_expression, MultiDict.get; now rewrite Ho).
  destruct (decide (strip (MultiDict.get args1 (u "search") (u "")) = [])) as [E|H1].
  - rewrite (search_run_empty cfg az args1 E).
    symmetry. apply search_run_empty. now rewrite <- Hs.
  - assert (H2 : strip (MultiDict.get args2 (u "search") (u "")) <> [])
      by now rewrite <- Hs.
    rewrite (search_run_query cfg az args1 H1), (search_run_query cfg az args2 H2).
    rewrite Hs, Hf, Hsort. reflexivity.
Qed.

Lemma Return_inj {A} (a b : A) : Return a = Return b -> a = b.
Proof. congruence. Qed.

Lemma error_page_not_results message results terms :
  error_page message <> results_page results terms.
Proof.
  intros H. apply (f_equal template_name) in H. vm_compute in H. discriminate.
Qed.

Lemma results_page_inj r1 t1 r2 t2 :
  results_page r1 t1 = results_page r2 t2 -> r1 = r2 /\ t1 = t2.
Proof.
  intros H. apply (f_equal context) in H. unfold results_page in H.
  cbn [context] in H. split; congruence.
Qed.

(** ** The gateway on its own *)

(** X1. [search_query] is transparent: its outcome is exactly what the SDK
    call gave, a result object or a raised exception, and when the call
    succeeds nothing is printed, the call being the only event. *)
Theorem gateway_is_transparent cfg az
    (search_text : list N) (filter_by sort_order : option (list N)) :
  Py.result (App.search_query cfg az search_text filter_by sort_order)
  = answer az (client_of cfg) search_text (App.search_kwargs filter_by sort_order)
  /\ (forall r,
        answer az (client_of cfg) search_text (App.search_kwargs filter_by sort_order)
          = Return r ->
        Py.events (App.search_query cfg az search_text filter_by sort_order)
        = [RemoteSearch (client_of cfg) search_text
             (App.search_kwargs filter_by sort_order)]).
Proof.
  rewrite search_query_run. cbv zeta.
  destruct (answer az _ search_text _) as [r|e]; split; try reflexivity.
  intros r' H. discriminate.
Qed.

Lemma gateway_is_transparent_witness :
  Py.events (App.search_query sample_cfg service_failing_late (u "paris") None None)
  = [RemoteSearch (client_of sample_cfg) (u "paris") (App.search_kwargs None None)].
Proof.
  apply (proj2 (gateway_is_transparent sample_cfg service_failing_late (u "paris")
                  None None)
           (mkSearchItemPaged
              (Raise (mkException (u "HttpResponseError") (u "Invalid expression"))))).
  reflexivity.
Defined.

(** ** The results page *)

(** X2. [search()] answers with the results page exactly when the stripped
    search term is non-empty, the remote call returned a result object and
    iterating that object did not raise; the page then holds that very
    object and echoes the stripped term, not the raw parameter. *)
Theorem results_page_iff cfg az (args : MultiDict.t) r (terms : list N) :
  Py.result (App.search cfg az args) = Return (results_page r terms)
  <-> terms = strip (MultiDict.get args (u "search") (u ""))
      /\ terms <> []
      /\ answer az (client_of cfg) terms
           (App.search_kwargs
              match MultiDict.first args (u "facet") with
              | Some facet => Some (u "metadata_author eq '" ++ facet ++ u "'")
              | None => None
              end
              (Some (App.sort_expression args))) = Return r
      /\ exists docs, iterate r = Return docs.
Proof.
  destruct (decide (strip (MultiDict.get args (u "search") (u "")) = [])) as [E|Hne].
  - rewrite (search_run_empty cfg az args E). cbn [Py.result fst]. split.
    + intros H%Return_inj. now apply error_page_not_results in H.
    + intros (-> & H & _). now rewrite E in H.
  - rewrite (search_run_query cfg az args Hne). cbv zeta.
    set (text := strip (MultiDict.get args (u "search") (u ""))) in *.
    set (kw := App.search_kwargs _ _).
    destruct (answer az (client_of cfg) text kw) as [r0|e] eqn:Ha;
      [destruct (iterate r0) as [docs|e] eqn:Hi|]; cbn [Py.result fst]; split.
    + intros H%Return_inj. apply results_page_inj in H as [-> <-].
      split; [reflexivity|]. split; [exact Hne|]. split; [exact Ha|]. eauto.
    + intros (-> & _ & H & _). fold text kw in H. rewrite Ha in H.
      apply Return_inj in H as ->. reflexivity.
    + intros H%Return_inj. now apply error_page_not_results in H.
    + intros (-> & _ & H & docs & Hd). fold text kw in H. rewrite Ha in H.
      apply Return_inj in H as ->. rewrite Hi in Hd. discriminate.
    + intros H%Return_inj. now apply error_page_not_results in H.
    + intros (-> & _ & H & _). fold text kw in H. rewrite Ha in H. discriminate.
Qed.

Lemma results_page_iff_witness :
  Py.result (App.search sample_cfg service_up
               [(u "search", u "  budget hotels "); (u "sort", u "size")])
  = Return (results_page
              (mkSearchItemPaged (Return [[(u "metadata_storage_name", u "a.pdf")]]))
              (u "budget hotels")).
Proof.
  apply (proj2 (results_page_iff sample_cfg service_up
                  [(u "search", u "  budget hotels "); (u "sort", u "size")]
                  (mkSearchItemPaged (Return [[(u "metadata_storage_name", u "a.pdf")]]))
                  (u "budget hotels"))).
  split; [reflexivity|]. split; [discriminate|]. split; [reflexivity|].
  eexists. reflexivity.
Defined.

(** ** The search text that is sent *)

(** X3. The search text of every query a request sends is the [search]
    value with a whitespace-only prefix and a whitespace-only suffix taken
    away: it is non-empty, neither starts nor ends with whitespace, and
    whitespace inside it is kept. *)
Theorem query_text_is_trimmed_term cfg az (args : MultiDict.t) c (t : list N) kw :
  In (c, t, kw) (remote_calls (Py.events (App.search cfg az args))) ->
  t <> []
  /\ (exists pre post,
        MultiDict.get args (u "search") (u "") = pre ++ t ++ post
        /\ forallb isspace pre = true /\ forallb isspace post = true)
  /\ (forall ch r, t = ch :: r -> isspace ch = false)
  /\ (forall r ch, t = r ++ [ch] -> isspace ch = false).
Proof.
  rewrite search_remote_calls.
  destruct (truthy _) eqn:T; [|intros []].
  intros [H|[]].
  assert (Ht : t = strip (MultiDict.get args (u "search") (u ""))) by congruence.
  clear H. subst t. repeat apply conj.
  - intros E. rewrite E in T. discriminate.
  - unfold strip.
    destruct (lstrip_decompose (MultiDict.get args (u "search") (u "")))
      as (pre & Hpre & Wpre).
    destruct (rstrip_decompose (lstrip (MultiDict.get args (u "search") (u ""))))
      as (post & Hpost & Wpost).
    exists pre, post. repeat split; try assumption.
    rewrite <- Hpost. exact Hpre.
  - intros ch r. apply strip_head.
  - intros r ch. apply strip_last.
Qed.

Lemma query_text_is_trimmed_term_witness :
  u "budget hotels" <> []
  /\ (exists pre post,
        MultiDict.get [(u "search", u "  budget hotels ")] (u "search") (u "")
          = pre ++ u "budget hotels" ++ post
        /\ forallb isspace pre = true /\ forallb isspace post = true)
  /\ (forall ch r, u "budget hotels" = ch :: r -> isspace ch = false)
  /\ (forall r ch, u "budget hotels" = r ++ [ch] -> isspace ch = false).
Proof.
  apply (query_text_is_trimmed_term sample_cfg service_up
           [(u "search", u "  budget hotels ")] (client_of sample_cfg)
           (u "budget hotels") (App.search_kwargs None (Some (u "search.score()")))).
  left. reflexivity.
Defined.

(** X4. Searching again for the term the results page echoes changes
    nothing: a request in which [search] is replaced by its stripped value
    runs exactly as the original one, page and trace alike. *)
Theorem resubmitting_echoed_term cfg az (args : MultiDict.t) :
  App.search cfg az
    ((u "search", strip (MultiDict.get args (u "search") (u ""))) :: args)
  = App.search cfg az args.
Proof.
  apply search_ext.
  - unfold MultiDict.get at 1. rewrite first_cons_eq. apply strip_idempotent.
  - apply first_cons_ne. intros H. vm_compute in H. discriminate.
  - apply first_cons_ne. intros H. vm_compute in H. discriminate.
Qed.

(** ** What is printed *)

(** X5. What a request prints depends on where it failed. A request that
    sends no query prints nothing. If the remote call itself raises, two
    lines are printed, first the gateway's [Error querying Azure Search:]
    and then the handler's [Error during search:], both with the exception's
    message. If the call returns and only iterating the results raises, the
    handler's line alone is printed. If nothing raises, nothing is printed. *)
Theorem failures_are_logged cfg az (args : MultiDict.t) :
  (remote_calls (Py.events (App.search cfg az args)) = [] ->
   stdout_lines (Py.events (App.search cfg az args)) = [])
  /\ forall c t kw,
       In (c, t, kw) (remote_calls (Py.events (App.search cfg az args))) ->
       (forall e, answer az c t kw = Raise e ->
          stdout_lines (Py.events (App.search cfg az args))
          = [u "Error querying Azure Search: " ++ exc_str e;
             u "Error during search: " ++ exc_str e])
       /\ (forall r e, answer az c t kw = Return r -> iterate r = Raise e ->
          stdout_lines (Py.events (App.search cfg az args))
          = [u "Error during search: " ++ exc_str e])
       /\ (forall r docs, answer az c t kw = Return r -> iterate r = Return docs ->
          stdout_lines (Py.events (App.search cfg az args)) = []).
Proof.
  destruct (decide (strip (MultiDict.get args (u "search") (u "")) = [])) as [E|Hne].
  - rewrite (search_run_empty cfg az args E). split; [reflexivity|].
    intros c t kw [].
  - pose proof (search_remote_calls cfg az args) as Hc. cbv zeta in Hc.
    assert (T : truthy (strip (MultiDict.get args (u "search") (u ""))) = true)
      by (destruct (strip _); [congruence|reflexivity]).
    rewrite T in Hc. rewrite Hc. clear Hc T. split; [discriminate|].
    intros c t kw [Heq|[]].
    apply (f_equal (fun q => answer az (fst (fst q)) (snd (fst q)) (snd q))) in Heq.
    cbn [fst snd] in Heq.
    rewrite (search_run_query cfg az args Hne). cbv zeta.
    rewrite Heq. clear Heq.
    destruct (answer az c t kw) as [r0|e0];
      [destruct (iterate r0) as [docs0|e0] eqn:Hi|]; repeat apply conj.
    + intros e H. discriminate.
    + intros r e H%Return_inj Hr. subst r0. rewrite Hi in Hr. discriminate.
    + reflexivity.
    + intros e H. discriminate.
    + intros r e H%Return_inj Hr. subst r0. rewrite Hi in Hr.
      injection Hr as ->. reflexivity.
    + intros r docs H%Return_inj Hr. subst r0. rewrite Hi in Hr. discriminate.
    + intros e [= ->]. reflexivity.
    + intros r e H. discriminate.
    + intros r docs H. discriminate.
Qed.

Lemma failures_are_logged_witness :
  stdout_lines (Py.events (App.search sample_cfg service_rejecting [(u "search", u "paris")]))
    = [u "Error querying Azure Search: Forbidden"; u "Error during search: Forbidden"]
  /\ stdout_lines (Py.events
       (App.search sample_cfg service_failing_late [(u "search", u "paris")]))
    = [u "Error during search: Invalid expression"].
Proof.
  split.
  - apply (proj2 (failures_are_logged sample_cfg service_rejecting
                    [(u "search", u "paris")])
             (client_of sample_cfg) (u "paris")
             (App.search_kwargs None (Some (u "search.score()"))))
      with (e := mkException (u "HttpResponseError") (u "Forbidden")).
    + left. reflexivity.
    + reflexivity.
  - apply (proj2 (failures_are_logged sample_cfg service_failing_late
                    [(u "search", u "paris")])
             (client_of sample_cfg) (u "paris")
             (App.search_kwargs None (Some (u "search.score()"))))
      with (r := mkSearchItemPaged
                   (Raise (mkException (u "HttpResponseError") (u "Invalid expression"))))
           (e := mkException (u "HttpResponseError") (u "Invalid expression")).
    + left. reflexivity.
    + reflexivity.
    + reflexivity.
Defined.

(** ** What reaches the service from the request *)



(** X7. The filter of a query has exactly two single quotes more than the
    facet value it was built from: quotes in the value are passed on as
    they are, so a value with an odd number of them gives a filter with an
    odd number of them. *)
Theorem filter_quote_count cfg az (args : MultiDict.t) c t kw (facet : list N) :
  In (c, t, kw) (remote_calls (Py.events (App.search cfg az args))) ->
  MultiDict.first args (u "facet") = Some facet ->
  exists expression,
    kw_filter kw = Some expression
    /\ count_occ N.eq_dec expression 39 = (2 + count_occ N.eq_dec facet 39%N)%nat.
Proof.
  rewrite search_remote_calls.
  destruct (truthy _); [|intros []].
  intros [H|[]] Hf.
  apply (f_equal (fun q => kw_filter (snd q))) in H. cbn [snd kw_filter App.search_kwargs] in H.
  rewrite Hf in H. eexists. split; [symmetry; exact H|].
  rewrite !count_occ_app.
  change (count_occ N.eq_dec (u "metadata_author eq '") 39) with 1%nat.
  change (count_occ N.eq_dec (u "'") 39) with 1%nat.
  lia.
Qed.

Lemma filter_quote_count_witness :
  exists expression,
    kw_filter (App.search_kwargs (Some (u "metadata_author eq 'O'Hara'"))
                 (Some (u "search.score()"))) = Some expression
    /\ count_occ N.eq_dec expression 39 = (2 + count_occ N.eq_dec (u "O'Hara") 39%N)%nat.
Proof.
  apply (filter_quote_count sample_cfg service_up
           [(u "search", u "paris"); (u "facet", u "O'Hara")]
           (client_of sample_cfg) (u "paris")).
  - left. reflexivity.
  - reflexivity.
Defined.

(** ** More on start-up *)

Lemma truthy_opt_false (o : option (list N)) :
  truthy_opt o = false <-> o = None \/ o = Some [].
Proof.
  destruct o as [[|c s]|]; cbn; split; intros H; try tauto; try discriminate.
  - destruct H as [H|H]; discriminate.
Qed.

(** The check of line 19 as a conjunction of the three truth values. *)
Lemma module_init_run (dotenv environ : gmap (list N) (list N)) :
  let read := getenv (load_dotenv dotenv environ) in
  module_init dotenv environ =
  if truthy_opt (read (u "SEARCH_SERVICE_ENDPOINT"))
     && truthy_opt (read (u "SEARCH_SERVICE_QUERY_KEY"))
     && truthy_opt (read (u "SEARCH_INDEX_NAME"))
  then Return (mkConfig (read (u "SEARCH_SERVICE_ENDPOINT"))
                 (read (u "SEARCH_SERVICE_QUERY_KEY")) (read (u "SEARCH_INDEX_NAME")))
  else Raise (ValueError missing_env_message).
Proof.
  intros read. unfold module_init. cbv zeta. fold read.
  cbn [all forallb id].
  destruct (truthy_opt (read (u "SEARCH_SERVICE_ENDPOINT")));
    destruct (truthy_opt (read (u "SEARCH_SERVICE_QUERY_KEY")));
    destruct (truthy_opt (read (u "SEARCH_INDEX_NAME"))); reflexivity.
Qed.

(** X8. The module body raises exactly when one of the three variables,
    read after [load_dotenv()], is unset or set to the empty string; the
    exception is then the [ValueError] of line 20. Otherwise the globals
    hold the three values as read. *)
Theorem module_init_raises_iff (dotenv environ : gmap (list N) (list N)) :
  ((exists name,
      In name [u "SEARCH_SERVICE_ENDPOINT"; u "SEARCH_SERVICE_QUERY_KEY";
               u "SEARCH_INDEX_NAME"]
      /\ (getenv (load_dotenv dotenv environ) name = None
          \/ getenv (load_dotenv dotenv environ) name = Some []))
   <-> exists e, module_init dotenv environ = Raise e)
  /\ (forall e, module_init dotenv environ = Raise e ->
        e = ValueError (u "Missing required environment variables in .env file."))
  /\ (forall cfg, module_init dotenv environ = Return cfg ->
        cfg = mkConfig (getenv (load_dotenv dotenv environ) (u "SEARCH_SERVICE_ENDPOINT"))
                (getenv (load_dotenv dotenv environ) (u "SEARCH_SERVICE_QUERY_KEY"))
                (getenv (load_dotenv dotenv environ) (u "SEARCH_INDEX_NAME"))).
Proof.
  rewrite module_init_run. cbv zeta.
  set (read := getenv (load_dotenv dotenv environ)).
  destruct (truthy_opt (read (u "SEARCH_SERVICE_ENDPOINT"))) eqn:He;
    [destruct (truthy_opt (read (u "SEARCH_SERVICE_QUERY_KEY"))) eqn:Hk;
       [destruct (truthy_opt (read (u "SEARCH_INDEX_NAME"))) eqn:Hi|]|];
    cbn [andb].
  - split; [split|split].
    + intros (name & Hin & Hm). apply truthy_opt_false in Hm.
      destruct Hin as [<-|[<-|[<-|[]]]]; congruence.
    + intros [e H]. discriminate.
    + intros e H. discriminate.
    + intros cfg H%Return_inj. now subst cfg.
  - split; [split|split].
    + intros _. eexists. reflexivity.
    + intros _. exists (u "SEARCH_INDEX_NAME"). split; [cbn [In]; tauto|].
      now apply truthy_opt_false.
    + intros e [= <-]. reflexivity.
    + intros cfg H. discriminate.
  - split; [split|split].
    + intros _. eexists. reflexivity.
    + intros _. exists (u "SEARCH_SERVICE_QUERY_KEY"). split; [cbn [In]; tauto|].
      now apply truthy_opt_false.
    + intros e [= <-]. reflexivity.
    + intros cfg H. discriminate.
  - split; [split|split].
    + intros _. eexists. reflexivity.
    + intros _. exists (u "SEARCH_SERVICE_ENDPOINT"). split; [cbn [In]; tauto|].
      now apply truthy_opt_false.
    + intros e [= <-]. reflexivity.
    + intros cfg H. discriminate.
Qed.

Lemma module_init_raises_iff_witness :
  exists e,
    module_init sample_dotenv {[ u "SEARCH_SERVICE_ENDPOINT" := [] ]} = Raise e.
Proof.
  apply (proj1 (proj1 (module_init_raises_iff sample_dotenv
                         {[ u "SEARCH_SERVICE_ENDPOINT" := [] ]}))).
  exists (u "SEARCH_SERVICE_ENDPOINT"). split.
  - left. reflexivity.
  - right. vm_compute. reflexivity.
Defined.


